(** * BITool: the GBIF occurrence query of [app.py]

    A shallow embedding of [get_gbif_occurrences] (app.py, lines 8-40) and of
    the branch of the page script that consumes its result (lines 64-70),
    with the values the sidebar hands to the function (lines 51-61), the name
    of the downloaded file (line 87) and the column reads of the tabs
    (lines 78, 95 and 101).

    Python values are an inductive type, dictionaries are finite maps with
    string keys, exceptions are an explicit [Raise] outcome, and the outside
    world (the [requests] library, the text of a float, the text of a
    container) is a parameter of the section that holds the program. *)

From Stdlib Require Import ZArith Ascii DecimalString DecimalPos DecimalZ Floats.
From stdpp Require Import base option list strings gmap fin_maps.

Set Warnings "-register-all".

(** ** Python values *)

(** The values the function can be handed or can read from a decoded JSON
    body.  [json.loads] produces [PNone], [PBool], [PInt], [PFloat], [PStr],
    [PList] and [PDict]; [PTuple] is what the page script passes for the year
    range and the bounding box.  A string is held as the bytes of its UTF-8
    text and its characters are its code points ([code_points]), a float is
    a binary64 number, and the keys of a dictionary are strings, as they are
    in a decoded JSON object. *)
Inductive pyval : Type :=
  | PNone
  | PBool (b : bool)
  | PInt (z : Z)
  | PFloat (f : float)
  | PStr (s : string)
  | PList (l : list pyval)
  | PTuple (l : list pyval)
  | PDict (d : gmap string pyval).

(** ** Exceptions and the outcome of a computation *)

Inductive exn : Type :=
  | AttributeError
  | TypeError
  | IndexError
  | KeyError
  | Foreign (name : string).   (* raised by library code: requests, json *)

Inductive outcome (A : Type) : Type :=
  | Return (a : A)
  | Raise (e : exn).
Arguments Return {A} a.
Arguments Raise {A} e.

#[global] Instance outcome_ret : MRet outcome := λ A a, Return a.
#[global] Instance outcome_bind : MBind outcome := λ A B k m,
  match m with
  | Return a => k a
  | Raise e => Raise e
  end.

(** ** Built-in operations used by the program *)

(** A byte that continues a code point in UTF-8: [10xxxxxx]. *)
Definition is_continuation (c : ascii) : bool :=
  match c with
  | Ascii _ _ _ _ _ _ b6 b7 => b7 && negb b6
  end.

(** The characters of a string: its bytes cut in front of every byte that
    starts a code point. *)
Fixpoint code_points (s : string) : list string :=
  match s with
  | EmptyString => []
  | String c rest =>
      let starts_inside :=
        match rest with
        | String c' _ => is_continuation c'
        | EmptyString => false
        end in
      match code_points rest with
      | chunk :: chunks =>
          if starts_inside then String c chunk :: chunks
          else String c EmptyString :: chunk :: chunks
      | [] => [String c EmptyString]
      end
  end.

(** [bool(v)], the test of [if v:]. *)
Definition truthy (v : pyval) : bool :=
  match v with
  | PNone => false
  | PBool b => b
  | PInt z => negb (z =? 0)%Z
  | PFloat f => negb (PrimFloat.eqb f 0%float)
  | PStr s => negb (String.length s =? 0)%nat
  | PList l | PTuple l => negb (length l =? 0)%nat
  | PDict d => negb (size d =? 0)%nat
  end.

(** [v[i]] for a literal index [i >= 0]. *)
Definition subscript (v : pyval) (i : nat) : outcome pyval :=
  match v with
  | PList l | PTuple l =>
      match l !! i with
      | Some x => Return x
      | None => Raise IndexError
      end
  | PStr s =>
      match code_points s !! i with
      | Some c => Return (PStr c)
      | None => Raise IndexError
      end
  | PDict _ => Raise KeyError      (* the keys of a dictionary are strings *)
  | _ => Raise TypeError
  end.

(** [v[k]] for a string key [k]. *)
Definition subscript_key (v : pyval) (k : string) : outcome pyval :=
  match v with
  | PDict d =>
      match d !! k with
      | Some x => Return x
      | None => Raise KeyError
      end
  | _ => Raise TypeError
  end.

(** [v.get(k, dflt)]: only a dictionary has the method. *)
Definition method_get (v : pyval) (k : string) (dflt : pyval) : outcome pyval :=
  match v with
  | PDict d => Return (default dflt (d !! k))
  | _ => Raise AttributeError
  end.

(** [k in s] for two strings. *)
Fixpoint is_substring (k s : string) : bool :=
  String.prefix k s ||
  match s with
  | EmptyString => false
  | String _ s' => is_substring k s'
  end.

(** [k == x] for a string [k]. *)
Definition str_eq (k : string) (x : pyval) : bool :=
  match x with
  | PStr s => bool_decide (s = k)
  | _ => false
  end.

(** [k in v] for a string [k]. *)
Definition contains (k : string) (v : pyval) : outcome bool :=
  match v with
  | PDict d => Return (bool_decide (is_Some (d !! k)))
  | PList l | PTuple l => Return (existsb (str_eq k) l)
  | PStr s => Return (is_substring k s)
  | _ => Raise TypeError
  end.

Definition chars (s : string) : list pyval := PStr <$> code_points s.

(** The items a [for] loop over [v] visits.  A dictionary yields its keys;
    the finite map does not keep Python's insertion order, and the loop of the
    program does not depend on it (see [collect_keys_no_rows]). *)
Definition iterate (v : pyval) : outcome (list pyval) :=
  match v with
  | PList l | PTuple l => Return l
  | PStr s => Return (chars s)
  | PDict d => Return (PStr <$> (map_to_list d).*1)
  | _ => Raise TypeError
  end.

(** [str(z)] for an integer: its decimal numeral.  CPython 3.11 and later
    refuses to print an integer of more than 4300 digits ([ValueError]); the
    model prints every integer, and the statements that rest on a filter
    being printed take [printable_items] as a hypothesis. *)
Definition int_str (z : Z) : string := NilZero.string_of_int (Z.to_int z).

(** ** The table handed to the page *)

(** [pd.DataFrame(records)]: the rows are the dictionaries appended to
    [records], in order. *)
Inductive dataframe : Type :=
  | DataFrame (records : list (gmap string pyval)).

Definition df_records (df : dataframe) : list (gmap string pyval) :=
  match df with DataFrame records => records end.

(** [df.empty] and [len(df)]. *)
Definition df_empty (df : dataframe) : bool :=
  match df_records df with [] => true | _ => false end.
Definition df_len (df : dataframe) : nat := length (df_records df).

(** What the page shows after one run of the script. *)
Inductive page : Type :=
  | Blank
  | Warning (msg : string)
  | Success (found : nat).

(** ** The program *)

Section Program.

(** The parts of the run that are not code of the repository: the text
    Python gives a float and a container, and the HTTP exchange. *)
Context (float_repr : float → string).
Context (container_repr : pyval → string).
Context {http_response : Type}.
Context (requests_get : string → gmap string pyval → outcome http_response).
Context (response_json : http_response → outcome pyval).

(** The text of [v] inside an f-string, [f"{v}"]. *)
Definition format_value (v : pyval) : string :=
  match v with
  | PNone => "None"
  | PBool true => "True"
  | PBool false => "False"
  | PInt z => int_str z
  | PFloat f => float_repr f
  | PStr s => s
  | PList _ | PTuple _ | PDict _ => container_repr v
  end.

Definition url : string := "https://api.gbif.org/v1/occurrence/search".

(** Lines 10-23: the query parameters. *)
Definition request_params (species_name limit year_range bbox : pyval)
  : outcome (gmap string pyval) :=
  let params : gmap string pyval :=
    list_to_map [("scientificName", species_name);
                 ("limit", limit);
                 ("hasCoordinate", PStr "true")] in
  (* Year filter *)
  params ←
    (if truthy year_range then
       y0 ← subscript year_range 0;
       y1 ← subscript year_range 1;
       mret (<["year" := PStr (format_value y0 +:+ "," +:+ format_value y1)]> params)
     else mret params);
  (* Bounding box filter *)
  params ←
    (if truthy bbox then
       b0 ← subscript bbox 0;
       b1 ← subscript bbox 1;
       let params :=
         <["decimalLatitude" := PStr (format_value b0 +:+ "," +:+ format_value b1)]> params in
       b2 ← subscript bbox 2;
       b3 ← subscript bbox 3;
       mret (<["decimalLongitude" := PStr (format_value b2 +:+ "," +:+ format_value b3)]> params)
     else mret params);
  mret params.

(** Lines 29-38: the loop over the results, [records] being the list built
    so far. *)
Fixpoint collect (items : list pyval) (records : list (gmap string pyval))
  : outcome (list (gmap string pyval)) :=
  match items with
  | [] => mret records
  | result :: rest =>
      has_lat ← contains "decimalLatitude" result;
      has_both ← (if has_lat : bool then contains "decimalLongitude" result
                  else mret false);
      if has_both : bool then
        species ← method_get result "scientificName" PNone;
        lat ← subscript_key result "decimalLatitude";
        lon ← subscript_key result "decimalLongitude";
        country ← method_get result "country" PNone;
        date ← method_get result "eventDate" PNone;
        basisOfRecord ← method_get result "basisOfRecord" PNone;
        collect rest (records ++ [list_to_map [("species", species);
                                               ("lat", lat);
                                               ("lon", lon);
                                               ("country", country);
                                               ("date", date);
                                               ("basisOfRecord", basisOfRecord)]])
      else collect rest records
  end.

(** Lines 28-40: from the decoded body to the table. *)
Definition flatten_response (data : pyval) : outcome dataframe :=
  results ← method_get data "results" (PList []);
  items ← iterate results;
  records ← collect items [];
  mret (DataFrame records).

(** Lines 8-40. *)
Definition get_gbif_occurrences (species_name limit year_range bbox : pyval)
  : outcome dataframe :=
  params ← request_params species_name limit year_range bbox;
  response ← requests_get url params;
  data ← response_json response;
  flatten_response data.

Definition no_records_msg : string :=
  "⚠️ No records found. Try changing filters or species name.".

(** Lines 64-70: one run of the page script, up to the message it shows.
    [Success n] is the message of line 70 for a table of [n] rows; the tabs
    rendered after it (lines 72-105) are not part of the model, and the
    outcome says nothing of what they do. *)
Definition run_query (species_name limit year_range bbox : pyval) : outcome page :=
  if truthy species_name then
    df ← get_gbif_occurrences species_name limit year_range bbox;
    if df_empty df then mret (Warning no_records_msg)
    else mret (Success (df_len df))
  else mret Blank.

End Program.

(** The defaults of the signature and of the sidebar. *)
Definition default_limit : pyval := PInt 500.


(** ** The page script around the query *)

(** Lines 51-61: what the widgets of the sidebar return. *)
Module Sidebar.
Record t : Type := {
  species_name : string;      (* text_input *)
  limit : Z;                  (* slider *)
  year_range : Z * Z;         (* range slider *)
  lat_min : float;            (* number_input *)
  lat_max : float;
  lon_min : float;
  lon_max : float;
  apply_bbox : bool           (* checkbox *)
}.
End Sidebar.

(** Line 53: the range slider returns a pair. *)
Definition year_range_of (s : Sidebar.t) : pyval :=
  PTuple [PInt (Sidebar.year_range s).1; PInt (Sidebar.year_range s).2].

(** Line 61. *)
Definition bbox_of (s : Sidebar.t) : pyval :=
  if Sidebar.apply_bbox s then
    PTuple [PFloat (Sidebar.lat_min s); PFloat (Sidebar.lat_max s);
            PFloat (Sidebar.lon_min s); PFloat (Sidebar.lon_max s)]
  else PNone.

(** [name.replace(' ', '_')]. *)
Fixpoint replace_spaces (name : string) : string :=
  match name with
  | EmptyString => EmptyString
  | String c rest =>
      String (if Ascii.eqb c " " then "_"%char else c) (replace_spaces rest)
  end.

(** Line 87: the name of the downloaded file. *)
Definition csv_file_name (species_name : string) : string :=
  replace_spaces species_name +:+ "_occurrences.csv".

(** The columns of [pd.DataFrame(records)]: the keys of the records. *)
Definition df_columns (df : dataframe) : gset string :=
  ⋃ (dom <$> df_records df).

(** [df[names]], the selection of columns: [KeyError] when a name is not a
    column of the table. *)
Definition df_getitem (names : list string) (df : dataframe) : outcome dataframe :=
  if decide (Forall (λ name, name ∈ df_columns df) names) then
    Return (DataFrame ((λ row : gmap string pyval,
                          filter (λ kv, kv.1 ∈ names) row) <$> df_records df))
  else Raise KeyError.

(** The column reads of the branch taken for a table that is not empty:
    [df[['lat', 'lon']]] (line 78), [df['country']] (line 95) and
    [df["date"]] (line 101); the rendering between them is left out. *)
Definition read_columns (df : dataframe) : outcome unit :=
  _ ← df_getitem ["lat"; "lon"] df;
  _ ← df_getitem ["country"] df;
  _ ← df_getitem ["date"] df;
  mret tt.

(** ** Vocabulary of the statements *)

(** An optional argument of the signature: [None], or a tuple of [n] items. *)
Definition optional_tuple (n : nat) (v : pyval) : Prop :=
  v = PNone ∨ ∃ l, v = PTuple l ∧ length l = n.

Definition is_dict (v : pyval) : bool :=
  match v with PDict _ => true | _ => false end.

(** A result record that has both coordinate keys. *)
Definition has_coordinates (v : pyval) : bool :=
  match v with
  | PDict d => bool_decide (is_Some (d !! "decimalLatitude"))
               && bool_decide (is_Some (d !! "decimalLongitude"))
  | _ => false
  end.

(** The projection of a record on the six consumed fields. *)
Definition record_row (v : pyval) : gmap string pyval :=
  match v with
  | PDict d =>
      list_to_map [("species", default PNone (d !! "scientificName"));
                   ("lat", default PNone (d !! "decimalLatitude"));
                   ("lon", default PNone (d !! "decimalLongitude"));
                   ("country", default PNone (d !! "country"));
                   ("date", default PNone (d !! "eventDate"));
                   ("basisOfRecord", default PNone (d !! "basisOfRecord"))]
  | _ => ∅
  end.

(** The flattener as the specification words it: a filter followed by a
    map, over the results in their order. *)
Definition filter_map_rows (results : list pyval) : list (gmap string pyval) :=
  record_row <$> filter has_coordinates results.

(** A decoded body of the expected shape: an object whose [results], when
    present, is a list of objects. *)
Definition results_of (d : gmap string pyval) : pyval :=
  default (PList []) (d !! "results").

(** The six columns of a row. *)
Definition columns : gset string :=
  list_to_set ["species"; "lat"; "lon"; "country"; "date"; "basisOfRecord"].

(** [row] is the row of the record [item]: a dictionary with both
    coordinate keys, each column holding the field it is read from, [None]
    standing for a field read with [get] that the record does not have. *)
Definition row_of_record (item : pyval) (row : gmap string pyval) : Prop :=
  ∃ r lat lon,
    item = PDict r ∧
    r !! "decimalLatitude" = Some lat ∧
    r !! "decimalLongitude" = Some lon ∧
    row !! "species" = Some (default PNone (r !! "scientificName")) ∧
    row !! "lat" = Some lat ∧
    row !! "lon" = Some lon ∧
    row !! "country" = Some (default PNone (r !! "country")) ∧
    row !! "date" = Some (default PNone (r !! "eventDate")) ∧
    row !! "basisOfRecord" = Some (default PNone (r !! "basisOfRecord")) ∧
    dom row = columns.

(** [row] carries the two coordinates of the record [item]. *)
Definition carries_coordinates (item : pyval) (row : gmap string pyval) : Prop :=
  ∃ r lat lon,
    item = PDict r ∧
    r !! "decimalLatitude" = Some lat ∧
    r !! "decimalLongitude" = Some lon ∧
    row !! "lat" = Some lat ∧
    row !! "lon" = Some lon.

(** The exception raised by reading the first [n] items of a filter [v]
    that the test [if v:] lets through; [None] when the filter is skipped or
    has the items. *)
Definition filter_error (n : nat) (v : pyval) : option exn :=
  if truthy v then
    match v with
    | PList l | PTuple l =>
        if bool_decide (n ≤ length l) then None else Some IndexError
    | PStr s =>
        if bool_decide (n ≤ length (code_points s)) then None else Some IndexError
    | PDict _ => Some KeyError
    | _ => Some TypeError
    end
  else None.

(** A value whose text Python gives: a scalar, an integer having at most
    4300 digits. *)
Definition printable (v : pyval) : Prop :=
  match v with
  | PInt z => (Z.abs z < 10 ^ 4300)%Z
  | PList _ | PTuple _ | PDict _ => False
  | _ => True
  end.

(** The first [n] items of a sequence can be printed; a string has
    characters for items, and nothing is printed of another value. *)
Definition printable_items (n : nat) (v : pyval) : Prop :=
  match v with
  | PList l | PTuple l => Forall printable (take n l)
  | _ => True
  end.

(** [s] is the decimal numeral of [z]: its digits without a leading zero,
    after a minus sign when [z] is negative. *)
Definition decimal_numeral (z : Z) (s : string) : Prop :=
  NilZero.int_of_string s = Some (Z.to_int z).

(** [s] is the text of [v], as [str(v)] gives it: written here without the
    program's [format_value], to state what the program sends. *)
Definition is_text (float_repr : float → string) (container_repr : pyval → string)
    (v : pyval) (s : string) : Prop :=
  match v with
  | PNone => s = "None"
  | PBool b => s = if b then "True" else "False"
  | PInt z => decimal_numeral z s
  | PFloat f => s = float_repr f
  | PStr t => s = t
  | PList _ | PTuple _ | PDict _ => s = container_repr v
  end.

(** The exception one turn of the loop raises on the item [v]; [None] when
    the turn goes through. *)
Definition item_error (v : pyval) : option exn :=
  match v with
  | PDict _ => None
  | PStr s =>
      if is_substring "decimalLatitude" s && is_substring "decimalLongitude" s
      then Some AttributeError else None
  | PList l | PTuple l =>
      if existsb (str_eq "decimalLatitude") l && existsb (str_eq "decimalLongitude") l
      then Some AttributeError else None
  | _ => Some TypeError
  end.

(** The six fields of a record the loop reads. *)
Definition consumed_fields : list string :=
  ["scientificName"; "decimalLatitude"; "decimalLongitude";
   "country"; "eventDate"; "basisOfRecord"].

(** Two records that agree on the fields the loop reads. *)
Definition same_consumed_fields (v v' : pyval) : Prop :=
  ∃ r r', v = PDict r ∧ v' = PDict r' ∧
          ∀ k, k ∈ consumed_fields → r !! k = r' !! k.

(** The keys sent with every request. *)
Definition fixed_keys : gset string :=
  list_to_set ["scientificName"; "limit"; "hasCoordinate"].

(** A text without a comma. *)
Fixpoint comma_free (s : string) : bool :=
  match s with
  | EmptyString => true
  | String c rest => negb (Ascii.eqb c ",") && comma_free rest
  end.

(** ** Sample inputs *)

Definition monarch : string := "Danaus plexippus".

Definition complete_record : gmap string pyval :=
  list_to_map [("scientificName", PStr "Danaus plexippus (Linnaeus, 1758)");
               ("decimalLatitude", PFloat 40.5);
               ("decimalLongitude", PFloat (-100.25));
               ("country", PStr "United States of America");
               ("basisOfRecord", PStr "HUMAN_OBSERVATION")].

Definition record_without_longitude : gmap string pyval :=
  list_to_map [("scientificName", PStr "Danaus plexippus (Linnaeus, 1758)");
               ("decimalLatitude", PFloat 19.5);
               ("eventDate", PStr "2011-03-04")].

Definition record_with_null_coordinates : gmap string pyval :=
  list_to_map [("scientificName", PStr "Danaus plexippus (Linnaeus, 1758)");
               ("decimalLatitude", PNone);
               ("decimalLongitude", PNone)].

Definition body_of (results : list pyval) : gmap string pyval :=
  list_to_map [("offset", PInt 0); ("results", PList results)].

(** The text Python gives the four default bounds of the sidebar
    (lines 56-59); the samples format no other float. *)
Definition sidebar_float_repr (f : float) : string :=
  if PrimFloat.eqb f 20 then "20.0"
  else if PrimFloat.eqb f 50 then "50.0"
  else if PrimFloat.eqb f (-130) then "-130.0"
  else if PrimFloat.eqb f (-60) then "-60.0"
  else "nan".

(** The samples format no container. *)
Definition no_container_repr (v : pyval) : string := "".

(** A network that cannot be reached, and a server that answers with a page
    that is not JSON. *)
Definition offline_get (url : string) (params : gmap string pyval) : outcome string :=
  Raise (Foreign "ConnectionError").

Definition gateway_get (url : string) (params : gmap string pyval) : outcome string :=
  Return "<html>502 Bad Gateway</html>".

Definition json_of_page (body : string) : outcome pyval :=
  Raise (Foreign "JSONDecodeError").





(** A server that answers every request with the same decoded body. *)
Definition answer_get (url : string) (params : gmap string pyval) : outcome unit :=
  Return tt.

Definition json_const (body : pyval) (response : unit) : outcome pyval :=
  Return body.

(** ** The loop *)

Lemma bind_return {A B} (m : outcome A) (k : A → outcome B) (b : B) :
  m ≫= k = Return b → ∃ a, m = Return a ∧ k a = Return b.
Proof. destruct m as [a|e]; simpl; [eauto | discriminate]. Qed.

Lemma bind_raise {A B} (m : outcome A) (k : A → outcome B) (e : exn) :
  m = Raise e → m ≫= k = Raise e.
Proof. by intros ->. Qed.

Lemma has_coordinates_dict (d : gmap string pyval) :
  has_coordinates (PDict d) = true ↔
  ∃ lat lon, d !! "decimalLatitude" = Some lat ∧ d !! "decimalLongitude" = Some lon.
Proof.
  simpl. rewrite andb_true_iff, !bool_decide_eq_true. unfold is_Some.
  split.
  - intros [[lat Hlat] [lon Hlon]]. eauto.
  - intros (lat & lon & Hlat & Hlon). eauto.
Qed.

(** One turn of the loop on a record with both keys appends its projection. *)
Lemma collect_keep (d : gmap string pyval) rest records :
  has_coordinates (PDict d) = true →
  collect (PDict d :: rest) records = collect rest (records ++ [record_row (PDict d)]).
Proof.
  intros (lat & lon & Hlat & Hlon)%has_coordinates_dict.
  simpl. rewrite Hlat, Hlon. reflexivity.
Qed.

(** One turn on a record that lacks a key leaves the list as it is. *)
Lemma collect_skip (d : gmap string pyval) rest records :
  has_coordinates (PDict d) = false →
  collect (PDict d :: rest) records = collect rest records.
Proof.
  simpl. intros H.
  destruct (bool_decide (is_Some (d !! "decimalLatitude"))); simpl in *; [|done].
  by rewrite H.
Qed.

(** An item that is not a dictionary never adds a row: the turn either
    raises or skips the item. *)
Lemma collect_not_dict v rest records :
  is_dict v = false →
  (∃ e, collect (v :: rest) records = Raise e) ∨
  collect (v :: rest) records = collect rest records.
Proof.
  intros Hv. destruct v; try discriminate; simpl; eauto.
  - destruct (is_substring "decimalLatitude" s); simpl; [|by right].
    destruct (is_substring "decimalLongitude" s); simpl; eauto.
  - destruct (existsb _ l); simpl; [|by right].
    destruct (existsb _ l); simpl; eauto.
  - destruct (existsb _ l); simpl; [|by right].
    destruct (existsb _ l); simpl; eauto.
Qed.

Lemma filter_map_rows_cons v rest :
  filter_map_rows (v :: rest) =
  (if has_coordinates v then [record_row v] else []) ++ filter_map_rows rest.
Proof.
  unfold filter_map_rows. rewrite filter_cons.
  destruct (has_coordinates v) eqn:E; case_decide as H; simpl in *;
    rewrite ?E in H; try done.
Qed.

(** Whenever the loop returns, it has appended the filter-map of its items. *)
Lemma collect_spec items : ∀ records rows,
  collect items records = Return rows →
  rows = records ++ filter_map_rows items.
Proof.
  induction items as [|v rest IH]; intros records rows H.
  - simpl in H. injection H as <-. unfold filter_map_rows. simpl.
    by rewrite app_nil_r.
  - rewrite filter_map_rows_cons.
    destruct (is_dict v) eqn:Hd.
    + destruct v; try discriminate.
      destruct (has_coordinates (PDict d)) eqn:Hc.
      * rewrite collect_keep in H by done. apply IH in H.
        by rewrite <- app_assoc in H.
      * rewrite collect_skip in H by done. by apply IH in H.
    + assert (has_coordinates v = false) as -> by (by destruct v).
      destruct (collect_not_dict v rest records Hd) as [[e He]|He];
        rewrite He in H; [discriminate|]. by apply IH in H.
Qed.

(** On a list of dictionaries the loop does return. *)
Lemma collect_total items : ∀ records,
  Forall is_dict items →
  collect items records = Return (records ++ filter_map_rows items).
Proof.
  induction items as [|v rest IH]; intros records Hall.
  - unfold filter_map_rows. simpl. by rewrite app_nil_r.
  - apply Forall_cons in Hall as [Hv Hrest].
    rewrite filter_map_rows_cons.
    destruct v; try done.
    destruct (has_coordinates (PDict d)) eqn:Hc.
    + rewrite collect_keep by done. rewrite IH by done.
      by rewrite <- app_assoc.
    + rewrite collect_skip by done. by rewrite IH.
Qed.

(** ** The flattener *)

Lemma filter_map_rows_app l1 l2 :
  filter_map_rows (l1 ++ l2) = filter_map_rows l1 ++ filter_map_rows l2.
Proof. unfold filter_map_rows. by rewrite filter_app, fmap_app. Qed.

Lemma filter_map_rows_length items :
  length (filter_map_rows items) ≤ length items.
Proof. unfold filter_map_rows. rewrite length_fmap. apply length_filter. Qed.

(** The row the loop appends for a record with both keys. *)
Lemma record_row_spec item :
  has_coordinates item = true → row_of_record item (record_row item).
Proof.
  destruct item as [| | | | | | |r]; try discriminate.
  intros (lat & lon & Hlat & Hlon)%has_coordinates_dict.
  exists r, lat, lon. simpl. rewrite Hlat, Hlon. simpl.
  repeat split; done.
Qed.

Lemma filter_map_rows_spec items :
  Forall2 row_of_record (filter has_coordinates items) (filter_map_rows items).
Proof.
  unfold filter_map_rows. apply Forall2_fmap_r.
  apply (Forall_Forall2_diag (λ x, row_of_record x ∘ record_row)).
  apply Forall_forall. intros item [Hitem _]%list_elem_of_filter.
  apply record_row_spec. by apply Is_true_eq_true.
Qed.

(** Whenever the flattener returns, the body was an object and the table
    holds the filter-map of the items the loop visited. *)
Lemma flatten_spec data df :
  flatten_response data = Return df →
  ∃ d items, data = PDict d ∧ iterate (results_of d) = Return items ∧
             df = DataFrame (filter_map_rows items).
Proof.
  unfold flatten_response. intros H.
  apply bind_return in H as (results & Hget & H).
  apply bind_return in H as (items & Hiter & H).
  apply bind_return in H as (records & Hloop & H).
  destruct data; try discriminate. injection Hget as <-.
  injection H as <-. apply collect_spec in Hloop as ->.
  eauto.
Qed.

(** On a body of the expected shape the flattener does return. *)
Lemma flatten_total d results :
  results_of d = PList results → Forall is_dict results →
  flatten_response (PDict d) = Return (DataFrame (filter_map_rows results)).
Proof.
  intros Hres Hall. unfold flatten_response. simpl.
  fold (results_of d). rewrite Hres. simpl.
  by rewrite collect_total.
Qed.

(** A loop over the keys of a dictionary adds no row, in whatever order the
    keys come. *)
Lemma collect_keys_no_rows (keys : list string) records rows :
  collect (PStr <$> keys) records = Return rows → rows = records.
Proof.
  intros ->%collect_spec. unfold filter_map_rows.
  assert (filter has_coordinates (PStr <$> keys) = []) as ->.
  { induction keys as [|k keys IH]; [done|].
    rewrite fmap_cons, filter_cons_False; [done | simpl; tauto]. }
  simpl. by rewrite app_nil_r.
Qed.

Lemma row_of_record_coordinates item row :
  row_of_record item row → carries_coordinates item row.
Proof.
  intros (r & lat & lon & -> & Hlat & Hlon & _ & Hrlat & Hrlon & _).
  by exists r, lat, lon.
Qed.

Lemma filter_map_rows_coordinates items :
  Forall2 carries_coordinates (filter has_coordinates items) (filter_map_rows items).
Proof.
  eapply Forall2_impl; [apply filter_map_rows_spec|].
  apply row_of_record_coordinates.
Qed.

Lemma elem_of_filter_has_coordinates (items : list pyval) item :
  item ∈ filter has_coordinates items ↔ item ∈ items ∧ has_coordinates item = true.
Proof.
  rewrite list_elem_of_filter. split.
  - intros [Hc Hin]. split; [done|]. by apply Is_true_eq_true.
  - intros [Hin Hc]. split; [|done]. by apply Is_true_eq_left.
Qed.

Lemma lacks_longitude (r : gmap string pyval) :
  r !! "decimalLongitude" = None → has_coordinates (PDict r) = false.
Proof.
  intros H. simpl. rewrite H.
  rewrite (bool_decide_eq_false_2 (is_Some None)) by (by intros [? ?]).
  apply andb_false_r.
Qed.

(** ** Claims on the flattener *)

(** C2.  For every decoded body on which the flattener returns a table, the
    rows of the table correspond, one to one and in order, to the visited
    records that have both coordinate keys: a record lacking
    [decimalLatitude] or [decimalLongitude] has no row, and every row holds
    the two values of its record.  On a body whose results are a list of
    objects the flattener does return; and when that list has two entries,
    one of them without [decimalLongitude] and the other with both keys, the
    table has exactly one row. *)
Theorem flatten_excludes_missing_coordinates :
  (∀ data df, flatten_response data = Return df →
     ∃ d items kept,
       data = PDict d ∧ iterate (results_of d) = Return items ∧
       (∀ item, item ∈ kept ↔ item ∈ items ∧ has_coordinates item = true) ∧
       Forall2 carries_coordinates kept (df_records df))
  ∧ (∀ d results, results_of d = PList results → Forall is_dict results →
     ∃ df, flatten_response (PDict d) = Return df)
  ∧ (∀ d r1 r2, results_of d = PList [PDict r1; PDict r2] →
       (has_coordinates (PDict r1) = true ∧ r2 !! "decimalLongitude" = None) ∨
       (r1 !! "decimalLongitude" = None ∧ has_coordinates (PDict r2) = true) →
     ∃ df, flatten_response (PDict d) = Return df ∧ df_len df = 1).
Proof.
  split; [|split].
  - intros data df (d & items & -> & Hiter & ->)%flatten_spec.
    exists d, items, (filter has_coordinates items).
    split; [done|]. split; [done|]. split.
    + intros item. apply elem_of_filter_has_coordinates.
    + apply filter_map_rows_coordinates.
  - intros d results Hres Hall. eexists. by apply flatten_total.
  - intros d r1 r2 Hres Hone. eexists. split.
    { apply flatten_total; [done|]. by repeat constructor. }
    unfold df_len. simpl. rewrite !filter_map_rows_cons.
    destruct Hone as [[H1 H2%lacks_longitude]|[H1%lacks_longitude H2]];
      by rewrite H1, H2.
Qed.

Lemma flatten_excludes_missing_coordinates_witness :
  ∃ df, flatten_response
          (PDict (body_of [PDict complete_record; PDict record_without_longitude]))
        = Return df ∧ df_len df = 1.
Proof.
  apply (proj2 (proj2 flatten_excludes_missing_coordinates)
           _ complete_record record_without_longitude).
  - reflexivity.
  - left. split; reflexivity.
Defined.

(** C6.  On a body whose results are a list of objects, the flattener
    returns a table whose rows are, in order, the rows of the records that
    have both coordinate keys; the row of a record has exactly the six
    columns [species], [lat], [lon], [country], [date] and [basisOfRecord],
    holding the record's [scientificName], [decimalLatitude],
    [decimalLongitude], [country], [eventDate] and [basisOfRecord], with
    [None] for a field the record does not have. *)
Theorem rows_project_consumed_fields (d : gmap string pyval) (results : list pyval) :
  results_of d = PList results → Forall is_dict results →
  ∃ df, flatten_response (PDict d) = Return df ∧
        Forall2 row_of_record (filter has_coordinates results) (df_records df).
Proof.
  intros Hres Hall. eexists. split; [by apply flatten_total|].
  apply filter_map_rows_spec.
Qed.

Lemma rows_project_consumed_fields_witness :
  ∃ df, flatten_response
          (PDict (body_of [PDict complete_record; PDict record_without_longitude]))
        = Return df ∧
        Forall2 row_of_record [PDict complete_record] (df_records df).
Proof.
  apply (rows_project_consumed_fields
           (body_of [PDict complete_record; PDict record_without_longitude])
           [PDict complete_record; PDict record_without_longitude]).
  - reflexivity.
  - repeat constructor.
Defined.

(** C9.  The filter tests the presence of the keys only: a record whose
    [decimalLatitude] and [decimalLongitude] are both present and [None]
    (JSON null) has its row in the table, at its place among the rows, with
    [None] in the [lat] and [lon] columns. *)
Theorem null_coordinates_are_kept
    (d : gmap string pyval) (before after : list pyval) (r : gmap string pyval) :
  results_of d = PList (before ++ PDict r :: after) →
  Forall is_dict before → Forall is_dict after →
  r !! "decimalLatitude" = Some PNone →
  r !! "decimalLongitude" = Some PNone →
  ∃ df row,
    flatten_response (PDict d) = Return df ∧
    df_records df = filter_map_rows before ++ row :: filter_map_rows after ∧
    row_of_record (PDict r) row ∧
    row !! "lat" = Some PNone ∧ row !! "lon" = Some PNone.
Proof.
  intros Hres Hb Ha Hlat Hlon.
  assert (has_coordinates (PDict r) = true) as Hc.
  { apply has_coordinates_dict. eauto. }
  exists (DataFrame (filter_map_rows (before ++ PDict r :: after))),
         (record_row (PDict r)).
  split; [|split; [|split]].
  - apply flatten_total; [done|].
    apply Forall_app. split; [done|]. by constructor.
  - simpl. rewrite filter_map_rows_app, filter_map_rows_cons, Hc. done.
  - by apply record_row_spec.
  - simpl. rewrite Hlat, Hlon. done.
Qed.

Lemma null_coordinates_are_kept_witness :
  ∃ df row,
    flatten_response
      (PDict (body_of [PDict complete_record; PDict record_with_null_coordinates]))
    = Return df ∧
    df_records df = filter_map_rows [PDict complete_record] ++ row :: filter_map_rows [] ∧
    row_of_record (PDict record_with_null_coordinates) row ∧
    row !! "lat" = Some PNone ∧ row !! "lon" = Some PNone.
Proof.
  apply (null_coordinates_are_kept
           (body_of [PDict complete_record; PDict record_with_null_coordinates])
           [PDict complete_record] [] record_with_null_coordinates).
  - reflexivity.
  - repeat constructor.
  - constructor.
  - reflexivity.
  - reflexivity.
Defined.

(** C10.  The flattener is an order-preserving filter-map: whenever it
    returns a table, the rows are the projections of the visited items that
    have both coordinate keys, in the order of the items, so there are at
    most as many rows as items; and on a body whose results are a list of
    objects it does return, the items being that list. *)
Theorem flatten_is_ordered_filter_map :
  (∀ data df, flatten_response data = Return df →
     ∃ d items,
       data = PDict d ∧ iterate (results_of d) = Return items ∧
       df_records df = record_row <$> filter has_coordinates items ∧
       filter has_coordinates items `sublist_of` items ∧
       df_len df ≤ length items)
  ∧ (∀ d results, results_of d = PList results → Forall is_dict results →
     ∃ df, flatten_response (PDict d) = Return df ∧
           df_records df = filter_map_rows results ∧
           df_len df ≤ length results).
Proof.
  split.
  - intros data df (d & items & -> & Hiter & ->)%flatten_spec.
    exists d, items. split; [done|]. split; [done|]. split; [done|].
    split; [apply sublist_filter | apply filter_map_rows_length].
  - intros d results Hres Hall. eexists. split; [by apply flatten_total|].
    split; [done | apply filter_map_rows_length].
Qed.

Lemma flatten_is_ordered_filter_map_witness :
  ∃ df, flatten_response
          (PDict (body_of [PDict record_without_longitude; PDict complete_record;
                           PDict record_with_null_coordinates]))
        = Return df ∧
        df_records df =
          filter_map_rows [PDict record_without_longitude; PDict complete_record;
                           PDict record_with_null_coordinates] ∧
        df_len df ≤ 3.
Proof.
  apply (proj2 flatten_is_ordered_filter_map
           (body_of [PDict record_without_longitude; PDict complete_record;
                     PDict record_with_null_coordinates])).
  - reflexivity.
  - repeat constructor.
Defined.

(** ** Claims on the query parameters *)

Section Params.

Context (float_repr : float → string).
Context (container_repr : pyval → string).

Local Abbreviation request_params := (request_params float_repr container_repr).
Local Abbreviation format_value := (format_value float_repr container_repr).

(** The two items of a 2-tuple joined by a comma, as line 18 and lines 22-23
    format them. *)
Local Abbreviation joined a b := (PStr (format_value a +:+ "," +:+ format_value b)).


(** The parameters on each of the four shapes of the filter set. *)
Lemma request_params_plain species_name limit :
  request_params species_name limit PNone PNone =
  Return (list_to_map [("scientificName", species_name); ("limit", limit);
                       ("hasCoordinate", PStr "true")]).
Proof. reflexivity. Qed.

Lemma request_params_year species_name limit start stop :
  request_params species_name limit (PTuple [start; stop]) PNone =
  Return (<["year" := joined start stop]>
            (list_to_map [("scientificName", species_name); ("limit", limit);
                          ("hasCoordinate", PStr "true")])).
Proof. reflexivity. Qed.



(** C4.  For the species "Danaus plexippus", the year range (2000, 2020) and
    no bounding box, whatever the limit, the parameter set has
    year = "2000,2020" and has neither [decimalLatitude] nor
    [decimalLongitude]. *)
Theorem monarch_query_params (limit : pyval) :
  ∃ params,
    request_params (PStr monarch) limit (PTuple [PInt 2000; PInt 2020]) PNone
    = Return params ∧
    params !! "year" = Some (PStr "2000,2020") ∧
    params !! "decimalLatitude" = None ∧
    params !! "decimalLongitude" = None.
Proof.
  rewrite request_params_year. eexists. split; [reflexivity|].
  repeat split; reflexivity.
Qed.


End Params.


(** ** Claim on failures *)

Section Failures.

Context (float_repr : float → string).
Context (container_repr : pyval → string).
Context {http_response : Type}.
Context (requests_get : string → gmap string pyval → outcome http_response).
Context (response_json : http_response → outcome pyval).

Local Abbreviation request_params := (request_params float_repr container_repr).
Local Abbreviation get_gbif_occurrences :=
  (get_gbif_occurrences float_repr container_repr requests_get response_json).
Local Abbreviation run_query :=
  (run_query float_repr container_repr requests_get response_json).

Lemma get_gbif_occurrences_unfold species_name limit year_range bbox params :
  request_params species_name limit year_range bbox = Return params →
  get_gbif_occurrences species_name limit year_range bbox =
  response ← requests_get url params;
  data ← response_json response;
  flatten_response data.
Proof.
  intros Hp.
  transitivity (request_params species_name limit year_range bbox ≫= λ p,
                response ← requests_get url p;
                data ← response_json response;
                flatten_response data); [reflexivity|].
  by rewrite Hp.
Qed.

Lemma run_query_falsy species_name limit year_range bbox :
  truthy species_name = false →
  run_query species_name limit year_range bbox = Return Blank.
Proof.
  intros Ht.
  transitivity (if truthy species_name then
                  df ← get_gbif_occurrences species_name limit year_range bbox;
                  if df_empty df then Return (Warning no_records_msg)
                  else Return (Success (df_len df))
                else Return Blank); [reflexivity|].
  by rewrite Ht.
Qed.

Lemma run_query_unfold species_name limit year_range bbox :
  truthy species_name = true →
  run_query species_name limit year_range bbox =
  df ← get_gbif_occurrences species_name limit year_range bbox;
  if df_empty df then Return (Warning no_records_msg)
  else Return (Success (df_len df)).
Proof.
  intros Ht.
  transitivity (if truthy species_name then
                  df ← get_gbif_occurrences species_name limit year_range bbox;
                  if df_empty df then Return (Warning no_records_msg)
                  else Return (Success (df_len df))
                else Return Blank); [reflexivity|].
  by rewrite Ht.
Qed.



End Failures.

(** ** The filters of the query *)

Lemma string_get_ge s : ∀ i, String.length s ≤ i → String.get i s = None.
Proof.
  induction s as [|c s IH]; intros i Hi; simpl in *; [by destruct i|].
  destruct i; [lia|]. apply IH. lia.
Qed.

(** A filter without error that passes the test has its first [n] items. *)
Lemma subscript_ok n v i :
  truthy v = true → filter_error n v = None → i < n →
  ∃ x, subscript v i = Return x.
Proof.
  unfold filter_error. intros -> Hn Hi.
  destruct v; try discriminate; simpl; case_bool_decide; try discriminate.
  - destruct (lookup_lt_is_Some_2 (code_points s) i) as [c ->]; [lia|]. eauto.
  - destruct (lookup_lt_is_Some_2 l i) as [x ->]; [lia|]. eauto.
  - destruct (lookup_lt_is_Some_2 l i) as [x ->]; [lia|]. eauto.
Qed.

(** A filter with an error passes the test, and the error is raised by the
    first read that fails. *)
Lemma subscript_first_error n v e :
  0 < n → filter_error n v = Some e →
  truthy v = true ∧
  ∃ i, i < n ∧ subscript v i = Raise e ∧
       ∀ j, j < i → ∃ x, subscript v j = Return x.
Proof.
  unfold filter_error. intros Hn. destruct (truthy v) eqn:Ht; [|discriminate].
  intros He. split; [done|].
  destruct v; try discriminate; simpl in *.
  - injection He as <-. exists 0. split; [done|]. split; [done|lia].
  - injection He as <-. exists 0. split; [done|]. split; [done|lia].
  - injection He as <-. exists 0. split; [done|]. split; [done|lia].
  - case_bool_decide; [discriminate|]. injection He as <-.
    exists (length (code_points s)). split; [lia|]. split.
    + by rewrite lookup_ge_None_2.
    + intros j Hj.
      destruct (lookup_lt_is_Some_2 (code_points s) j Hj) as [c ->]. eauto.
  - case_bool_decide; [discriminate|]. injection He as <-.
    exists (length l). split; [lia|]. split.
    + by rewrite lookup_ge_None_2.
    + intros j Hj. destruct (lookup_lt_is_Some_2 l j Hj) as [x ->]. eauto.
  - case_bool_decide; [discriminate|]. injection He as <-.
    exists (length l). split; [lia|]. split.
    + by rewrite lookup_ge_None_2.
    + intros j Hj. destruct (lookup_lt_is_Some_2 l j Hj) as [x ->]. eauto.
  - injection He as <-. exists 0. split; [done|]. split; [done|lia].
Qed.

(** ** The text of the year range *)

Lemma comma_free_digits d : comma_free (NilEmpty.string_of_uint d) = true.
Proof. induction d; simpl; auto. Qed.

Lemma comma_free_int_str z : comma_free (int_str z) = true.
Proof.
  unfold int_str, NilZero.string_of_int, NilZero.string_of_uint.
  destruct (Z.to_int z) as [d|d]; destruct d; simpl;
    auto using comma_free_digits.
Qed.

(** The text of an integer is its decimal numeral, and nothing else is. *)
Lemma int_str_numeral z : decimal_numeral z (int_str z).
Proof.
  unfold decimal_numeral, int_str.
  apply NilZero.isi; destruct z; simpl; try discriminate;
    intros [= Hnil]; by apply DecimalPos.Unsigned.to_uint_nonnil in Hnil.
Qed.

Lemma decimal_numeral_unique z s : decimal_numeral z s → s = int_str z.
Proof. intros H. symmetry. by apply NilZero.sis. Qed.

Lemma int_str_inj a b : int_str a = int_str b → a = b.
Proof.
  intros H. apply DecimalZ.to_int_inj.
  pose proof (int_str_numeral a) as Ha. rewrite H in Ha.
  pose proof (int_str_numeral b) as Hb. unfold decimal_numeral in *.
  congruence.
Qed.

(** Two texts without a comma are recovered from their joining by a comma. *)
Lemma comma_split a : ∀ a' b b',
  comma_free a = true → comma_free a' = true →
  a +:+ "," +:+ b = a' +:+ "," +:+ b' → a = a' ∧ b = b'.
Proof.
  induction a as [|c a IH]; intros [|c' a'] b b' Ha Ha' H; simpl in *.
  - by injection H.
  - injection H as <- _. by rewrite Ascii.eqb_refl in Ha'.
  - injection H as -> _. by rewrite Ascii.eqb_refl in Ha.
  - injection H as -> H.
    apply andb_true_iff in Ha as [_ Ha]. apply andb_true_iff in Ha' as [_ Ha'].
    destruct (IH a' b b' Ha Ha' H) as [-> ->]. done.
Qed.

(** ** More on the query parameters *)

Section MoreParams.
Context (float_repr : float → string).
Context (container_repr : pyval → string).

(** Unfolds the function; set before the abbreviations of the section take
    its name. *)
Ltac unfold_request_params := unfold request_params.

Local Abbreviation request_params := (request_params float_repr container_repr).
Local Abbreviation format_value := (format_value float_repr container_repr).
Local Abbreviation is_text := (is_text float_repr container_repr).
Local Abbreviation joined a b := (PStr (format_value a +:+ "," +:+ format_value b)).

(** What the program prints of a value is its text. *)
Lemma format_value_is_text v : is_text v (format_value v).
Proof.
  destruct v as [|[|]| | | | | |]; simpl; try done. apply int_str_numeral.
Qed.

Lemma optional_tuple_filter_error n v :
  optional_tuple n v → filter_error n v = None.
Proof.
  intros [->|(l & -> & Hl)]; [done|].
  unfold filter_error. destruct (truthy (PTuple l)); [|done].
  by rewrite bool_decide_eq_true_2 by lia.
Qed.

Lemma request_params_raise_year species_name limit year_range bbox e :
  filter_error 2 year_range = Some e →
  request_params species_name limit year_range bbox = Raise e.
Proof.
  intros (Ht & i & Hi & Hraise & Hbefore)%subscript_first_error; [|lia].
  unfold_request_params. rewrite Ht.
  destruct i as [|[|i]]; [| |lia].
  - by rewrite Hraise.
  - destruct (Hbefore 0) as [x ->]; [lia|]. simpl. by rewrite Hraise.
Qed.

Lemma request_params_raise_bbox species_name limit year_range bbox e :
  filter_error 2 year_range = None →
  filter_error 4 bbox = Some e →
  request_params species_name limit year_range bbox = Raise e.
Proof.
  intros Hyear (Ht & i & Hi & Hraise & Hbefore)%subscript_first_error; [|lia].
  unfold_request_params. rewrite Ht.
  destruct (truthy year_range) eqn:Hty.
  - destruct (subscript_ok 2 year_range 0) as [y0 ->]; [done..|lia|].
    destruct (subscript_ok 2 year_range 1) as [y1 ->]; [done..|lia|].
    simpl.
    destruct i as [|[|[|[|i]]]]; [| | | |lia].
    + by rewrite Hraise.
    + destruct (Hbefore 0) as [x0 ->]; [lia|]. simpl. by rewrite Hraise.
    + destruct (Hbefore 0) as [x0 ->]; [lia|].
      destruct (Hbefore 1) as [x1 ->]; [lia|]. simpl. by rewrite Hraise.
    + destruct (Hbefore 0) as [x0 ->]; [lia|].
      destruct (Hbefore 1) as [x1 ->]; [lia|].
      destruct (Hbefore 2) as [x2 ->]; [lia|]. simpl. by rewrite Hraise.
  - simpl.
    destruct i as [|[|[|[|i]]]]; [| | | |lia].
    + by rewrite Hraise.
    + destruct (Hbefore 0) as [x0 ->]; [lia|]. simpl. by rewrite Hraise.
    + destruct (Hbefore 0) as [x0 ->]; [lia|].
      destruct (Hbefore 1) as [x1 ->]; [lia|]. simpl. by rewrite Hraise.
    + destruct (Hbefore 0) as [x0 ->]; [lia|].
      destruct (Hbefore 1) as [x1 ->]; [lia|].
      destruct (Hbefore 2) as [x2 ->]; [lia|]. simpl. by rewrite Hraise.
Qed.
Lemma request_params_return species_name limit year_range bbox :
  filter_error 2 year_range = None → filter_error 4 bbox = None →
  ∃ params, request_params species_name limit year_range bbox = Return params.
Proof.
  intros Hyear Hbbox. unfold_request_params.
  destruct (truthy year_range) eqn:Hty.
  - destruct (subscript_ok 2 year_range 0) as [y0 ->]; [done..|lia|].
    destruct (subscript_ok 2 year_range 1) as [y1 ->]; [done..|lia|].
    simpl. destruct (truthy bbox) eqn:Htb; [|by eexists].
    destruct (subscript_ok 4 bbox 0) as [b0 ->]; [done..|lia|].
    destruct (subscript_ok 4 bbox 1) as [b1 ->]; [done..|lia|].
    destruct (subscript_ok 4 bbox 2) as [b2 ->]; [done..|lia|].
    destruct (subscript_ok 4 bbox 3) as [b3 ->]; [done..|lia|].
    by eexists.
  - simpl. destruct (truthy bbox) eqn:Htb; [|by eexists].
    destruct (subscript_ok 4 bbox 0) as [b0 ->]; [done..|lia|].
    destruct (subscript_ok 4 bbox 1) as [b1 ->]; [done..|lia|].
    destruct (subscript_ok 4 bbox 2) as [b2 ->]; [done..|lia|].
    destruct (subscript_ok 4 bbox 3) as [b3 ->]; [done..|lia|].
    by eexists.
Qed.

(** The parameters after the year filter and after the bounding box
    filter. *)
Lemma request_params_inv species_name limit year_range bbox params :
  request_params species_name limit year_range bbox = Return params →
  ∃ with_year : gmap string pyval,
    (if truthy year_range then
       ∃ y0 y1, subscript year_range 0 = Return y0 ∧
                subscript year_range 1 = Return y1 ∧
                with_year = <["year" := joined y0 y1]>
                              (list_to_map [("scientificName", species_name);
                                            ("limit", limit);
                                            ("hasCoordinate", PStr "true")])
     else with_year = list_to_map [("scientificName", species_name);
                                   ("limit", limit);
                                   ("hasCoordinate", PStr "true")]) ∧
    (if truthy bbox then
       ∃ b0 b1 b2 b3, subscript bbox 0 = Return b0 ∧ subscript bbox 1 = Return b1 ∧
                      subscript bbox 2 = Return b2 ∧ subscript bbox 3 = Return b3 ∧
                      params = <["decimalLongitude" := joined b2 b3]>
                                 (<["decimalLatitude" := joined b0 b1]> with_year)
     else params = with_year).
Proof.
  unfold_request_params. intros H.
  apply bind_return in H as (with_year & Hyear & H).
  apply bind_return in H as (with_bbox & Hbbox & [= <-]).
  exists with_year. split.
  - destruct (truthy year_range); [|by injection Hyear].
    apply bind_return in Hyear as (y0 & Hy0 & Hyear).
    apply bind_return in Hyear as (y1 & Hy1 & [= <-]).
    by exists y0, y1.
  - destruct (truthy bbox); [|by injection Hbbox].
    apply bind_return in Hbbox as (b0 & Hb0 & Hbbox).
    apply bind_return in Hbbox as (b1 & Hb1 & Hbbox).
    apply bind_return in Hbbox as (b2 & Hb2 & Hbbox).
    apply bind_return in Hbbox as (b3 & Hb3 & [= <-]).
    by exists b0, b1, b2, b3.
Qed.

(** What the parameters hold under each key. *)
Lemma request_params_lookups species_name limit year_range bbox params :
  request_params species_name limit year_range bbox = Return params →
  params !! "scientificName" = Some species_name ∧
  params !! "limit" = Some limit ∧
  params !! "hasCoordinate" = Some (PStr "true") ∧
  (if truthy year_range then
     ∃ y0 y1, subscript year_range 0 = Return y0 ∧
              subscript year_range 1 = Return y1 ∧
              params !! "year" = Some (joined y0 y1)
   else params !! "year" = None) ∧
  (if truthy bbox then
     ∃ b0 b1 b2 b3, subscript bbox 0 = Return b0 ∧ subscript bbox 1 = Return b1 ∧
                    subscript bbox 2 = Return b2 ∧ subscript bbox 3 = Return b3 ∧
                    params !! "decimalLatitude" = Some (joined b0 b1) ∧
                    params !! "decimalLongitude" = Some (joined b2 b3)
   else params !! "decimalLatitude" = None ∧ params !! "decimalLongitude" = None).
Proof.
  intros (with_year & Hyear & Hbbox)%request_params_inv.
  destruct (truthy year_range), (truthy bbox).
  - destruct Hyear as (y0 & y1 & Hy0 & Hy1 & ->).
    destruct Hbbox as (b0 & b1 & b2 & b3 & Hb0 & Hb1 & Hb2 & Hb3 & ->).
    do 3 (split; [done|]). split.
    + by exists y0, y1.
    + by exists b0, b1, b2, b3.
  - destruct Hyear as (y0 & y1 & Hy0 & Hy1 & ->). subst params.
    do 3 (split; [done|]). split; [|done]. by exists y0, y1.
  - subst with_year.
    destruct Hbbox as (b0 & b1 & b2 & b3 & Hb0 & Hb1 & Hb2 & Hb3 & ->).
    do 3 (split; [done|]). split; [done|]. by exists b0, b1, b2, b3.
  - by subst.
Qed.

(** C1.  For every species name and every filter set (a year range that is
    absent or a pair, a bounding box that is absent or a 4-tuple, of values
    that Python prints), the function builds a parameter set that holds the
    species name itself under [scientificName] and, when the year range is
    the pair [(start, stop)], holds under [year] the text of [start], a comma
    and the text of [stop]: for integers their decimal numerals, for a string
    the string itself. *)
Theorem params_hold_species_and_year (species_name limit year_range bbox : pyval) :
  optional_tuple 2 year_range → optional_tuple 4 bbox →
  printable_items 2 year_range → printable_items 4 bbox →
  ∃ params,
    request_params species_name limit year_range bbox = Return params ∧
    params !! "scientificName" = Some species_name ∧
    ∀ start stop, year_range = PTuple [start; stop] →
      ∃ text_start text_stop,
        is_text start text_start ∧ is_text stop text_stop ∧
        params !! "year" = Some (PStr (text_start +:+ "," +:+ text_stop)).
Proof.
  intros Hyear%optional_tuple_filter_error Hbbox%optional_tuple_filter_error _ _.
  destruct (request_params_return species_name limit year_range bbox)
    as [params Hp]; [done..|].
  exists params. split; [done|].
  apply request_params_lookups in Hp as (Hname & _ & _ & Hy & _).
  split; [done|]. intros start stop ->. simpl in Hy.
  destruct Hy as (y0 & y1 & [= <-] & [= <-] & Hy).
  exists (format_value start), (format_value stop).
  split; [apply format_value_is_text|]. split; [apply format_value_is_text|].
  done.
Qed.

(** C5, as the code has it.  For every call that builds its parameter set,
    the set holds the scientific name, the limit and hasCoordinate = "true";
    it has a [year] exactly when the year range passes the test of line 17,
    and [decimalLatitude] and [decimalLongitude] exactly when the bounding
    box passes the test of line 21: an argument that is supplied but falsy
    adds nothing, like [None].  The set is built whenever each filter that
    passes its test is a sequence with the items read from it, of values
    that Python prints. *)
Theorem params_fixed_and_truthy_filters (species_name limit year_range bbox : pyval) :
  (∀ params,
     request_params species_name limit year_range bbox = Return params →
     params !! "scientificName" = Some species_name ∧
     params !! "limit" = Some limit ∧
     params !! "hasCoordinate" = Some (PStr "true") ∧
     (is_Some (params !! "year") ↔ truthy year_range = true) ∧
     (is_Some (params !! "decimalLatitude") ↔ truthy bbox = true) ∧
     (is_Some (params !! "decimalLongitude") ↔ truthy bbox = true))
  ∧ (filter_error 2 year_range = None → filter_error 4 bbox = None →
     printable_items 2 year_range → printable_items 4 bbox →
     ∃ params, request_params species_name limit year_range bbox = Return params).
Proof.
  split.
  - intros params (Hname & Hlimit & Hcoord & Hyear & Hbbox)%request_params_lookups.
    do 3 (split; [done|]).
    assert (is_Some (params !! "year") ↔ truthy year_range = true) as Hy.
    { destruct (truthy year_range).
      - destruct Hyear as (y0 & y1 & _ & _ & ->). split; eauto.
      - rewrite Hyear. split; [by intros [? ?] | done]. }
    assert ((is_Some (params !! "decimalLatitude") ↔ truthy bbox = true) ∧
            (is_Some (params !! "decimalLongitude") ↔ truthy bbox = true))
      as [Hlat Hlon].
    { destruct (truthy bbox).
      - destruct Hbbox as (b0 & b1 & b2 & b3 & _ & _ & _ & _ & -> & ->).
        split; split; eauto.
      - destruct Hbbox as [-> ->].
        split; (split; [by intros [? ?] | done]). }
    done.
  - intros Hyear Hbbox _ _. by apply request_params_return.
Qed.

(** X1.  Whenever the parameters are built, their keys are the three fixed
    keys, [year] when the year range passes the test of line 17, and
    [decimalLatitude] and [decimalLongitude] when the bounding box passes
    the test of line 21, and no other key; the year is the text of the first
    item of the year range, a comma and the text of its second item. *)
Theorem params_keys_exact (species_name limit year_range bbox : pyval)
    (params : gmap string pyval) :
  request_params species_name limit year_range bbox = Return params →
  dom params =
    fixed_keys
    ∪ (if truthy year_range then {["year"]} else ∅)
    ∪ (if truthy bbox then {["decimalLatitude"; "decimalLongitude"]} else ∅)
  ∧ (truthy year_range = true →
     ∃ y0 y1 text0 text1,
       subscript year_range 0 = Return y0 ∧
       subscript year_range 1 = Return y1 ∧
       is_text y0 text0 ∧ is_text y1 text1 ∧
       params !! "year" = Some (PStr (text0 +:+ "," +:+ text1))).
Proof.
  intros Hp. split.
  - apply request_params_inv in Hp as (with_year & Hyear & Hbbox).
    unfold fixed_keys.
    destruct (truthy year_range), (truthy bbox).
    + destruct Hyear as (y0 & y1 & _ & _ & ->).
      destruct Hbbox as (b0 & b1 & b2 & b3 & _ & _ & _ & _ & ->).
      simpl. rewrite !dom_insert_L, dom_empty_L. set_solver.
    + destruct Hyear as (y0 & y1 & _ & _ & ->). subst params.
      simpl. rewrite !dom_insert_L, dom_empty_L. set_solver.
    + subst with_year.
      destruct Hbbox as (b0 & b1 & b2 & b3 & _ & _ & _ & _ & ->).
      simpl. rewrite !dom_insert_L, dom_empty_L. set_solver.
    + subst. simpl. rewrite !dom_insert_L, dom_empty_L. set_solver.
  - intros Ht.
    apply request_params_lookups in Hp as (_ & _ & _ & Hyear & _).
    rewrite Ht in Hyear. destruct Hyear as (y0 & y1 & Hy0 & Hy1 & Hyear).
    exists y0, y1, (format_value y0), (format_value y1).
    split; [done|]. split; [done|].
    split; [apply format_value_is_text|]. split; [apply format_value_is_text|].
    done.
Qed.

(** X2.  For filters whose items Python prints, the parameters are built
    exactly when neither filter has an error: each filter is skipped by its
    test, or is a sequence with the items the function reads (two of the
    year range, four of the bounding box; the items of a string are its
    characters). *)
Theorem params_built_iff (species_name limit year_range bbox : pyval) :
  printable_items 2 year_range → printable_items 4 bbox →
  (∃ params, request_params species_name limit year_range bbox = Return params) ↔
  filter_error 2 year_range = None ∧ filter_error 4 bbox = None.
Proof.
  intros _ _. split.
  - intros [params Hp].
    destruct (filter_error 2 year_range) as [e|] eqn:Hyear.
    { by rewrite (request_params_raise_year _ _ _ _ e) in Hp. }
    destruct (filter_error 4 bbox) as [e|] eqn:Hbbox; [|done].
    by rewrite (request_params_raise_bbox _ _ _ _ e) in Hp.
  - intros [Hyear Hbbox]. by apply request_params_return.
Qed.

(** X3.  For integer years the text under [year] determines the pair: two
    year ranges of integers that give the same [year] parameter are the same
    range. *)
Theorem year_text_determines_range
    (species_name limit bbox : pyval) (start stop start' stop' : Z)
    (params params' : gmap string pyval) :
  request_params species_name limit (PTuple [PInt start; PInt stop]) bbox
    = Return params →
  request_params species_name limit (PTuple [PInt start'; PInt stop']) bbox
    = Return params' →
  params !! "year" = params' !! "year" →
  start = start' ∧ stop = stop'.
Proof.
  intros (with_year & Hyear & Hbbox)%request_params_inv.
  intros (with_year' & Hyear' & Hbbox')%request_params_inv.
  simpl in Hyear, Hyear'.
  destruct Hyear as (y0 & y1 & [= <-] & [= <-] & ->).
  destruct Hyear' as (y0' & y1' & [= <-] & [= <-] & ->).
  assert (params !! "year" = Some (joined (PInt start) (PInt stop))) as ->.
  { destruct (truthy bbox).
    - by destruct Hbbox as (? & ? & ? & ? & _ & _ & _ & _ & ->).
    - by subst params. }
  assert (params' !! "year" = Some (joined (PInt start') (PInt stop'))) as ->.
  { destruct (truthy bbox).
    - by destruct Hbbox' as (? & ? & ? & ? & _ & _ & _ & _ & ->).
    - by subst params'. }
  intros [= Heq]. simpl in Heq.
  apply comma_split in Heq as [Hstart Hstop]; auto using comma_free_int_str.
  split; by apply int_str_inj.
Qed.

(** X4.  With the values of the sidebar the parameters are always built:
    they hold the species name, the limit, the two years joined by a comma,
    and the two bounds of the box exactly when the box is ticked. *)
Theorem sidebar_params (s : Sidebar.t) :
  ∃ params,
    request_params (PStr (Sidebar.species_name s)) (PInt (Sidebar.limit s))
      (year_range_of s) (bbox_of s) = Return params ∧
    params !! "scientificName" = Some (PStr (Sidebar.species_name s)) ∧
    params !! "limit" = Some (PInt (Sidebar.limit s)) ∧
    params !! "year" =
      Some (PStr (int_str (Sidebar.year_range s).1 +:+ "," +:+
                  int_str (Sidebar.year_range s).2)) ∧
    params !! "decimalLatitude" =
      (if Sidebar.apply_bbox s
       then Some (PStr (float_repr (Sidebar.lat_min s) +:+ "," +:+
                        float_repr (Sidebar.lat_max s)))
       else None) ∧
    params !! "decimalLongitude" =
      (if Sidebar.apply_bbox s
       then Some (PStr (float_repr (Sidebar.lon_min s) +:+ "," +:+
                        float_repr (Sidebar.lon_max s)))
       else None).
Proof.
  unfold year_range_of, bbox_of.
  destruct (Sidebar.apply_bbox s).
  - eexists. split; [reflexivity|]. repeat split; reflexivity.
  - eexists. split; [reflexivity|]. repeat split; reflexivity.
Qed.

End MoreParams.

(** ** More on the loop *)

(** A turn on an item without error goes on, with the row of the item when
    it has both keys. *)
Lemma collect_step_ok v rest records :
  item_error v = None →
  collect (v :: rest) records =
  collect rest (records ++ (if has_coordinates v then [record_row v] else [])).
Proof.
  intros Hv. destruct v; try discriminate; simpl in Hv.
  - simpl. destruct (is_substring "decimalLatitude" s); simpl;
      [|by rewrite app_nil_r].
    destruct (is_substring "decimalLongitude" s); [discriminate|].
    simpl. by rewrite app_nil_r.
  - simpl. destruct (existsb (str_eq "decimalLatitude") l); simpl;
      [|by rewrite app_nil_r].
    destruct (existsb (str_eq "decimalLongitude") l); [discriminate|].
    simpl. by rewrite app_nil_r.
  - simpl. destruct (existsb (str_eq "decimalLatitude") l); simpl;
      [|by rewrite app_nil_r].
    destruct (existsb (str_eq "decimalLongitude") l); [discriminate|].
    simpl. by rewrite app_nil_r.
  - destruct (has_coordinates (PDict d)) eqn:Hc.
    + by apply collect_keep.
    + rewrite app_nil_r. by apply collect_skip.
Qed.

(** A turn on an item with an error raises it, whatever was collected. *)
Lemma collect_step_error v rest records e :
  item_error v = Some e → collect (v :: rest) records = Raise e.
Proof.
  intros Hv. destruct v; simpl in Hv; try (by injection Hv as <-).
  - simpl. destruct (is_substring "decimalLatitude" s); [|discriminate].
    destruct (is_substring "decimalLongitude" s); [|discriminate].
    by injection Hv as <-.
  - simpl. destruct (existsb (str_eq "decimalLatitude") l); [|discriminate].
    destruct (existsb (str_eq "decimalLongitude") l); [|discriminate].
    by injection Hv as <-.
  - simpl. destruct (existsb (str_eq "decimalLatitude") l); [|discriminate].
    destruct (existsb (str_eq "decimalLongitude") l); [|discriminate].
    by injection Hv as <-.
  - discriminate.
Qed.

Lemma collect_no_error items : ∀ records,
  Forall (λ v, item_error v = None) items →
  collect items records = Return (records ++ filter_map_rows items).
Proof.
  induction items as [|v rest IH]; intros records Hall.
  - unfold filter_map_rows. simpl. by rewrite app_nil_r.
  - apply Forall_cons in Hall as [Hv Hrest].
    rewrite collect_step_ok, IH, filter_map_rows_cons by done.
    by rewrite <- app_assoc.
Qed.

(** X5.  The loop over a concatenation is the loop over the first part
    followed by the loop over the second, started from what the first
    collected; an exception of the first part ends both. *)
Theorem collect_app (l1 l2 : list pyval) (records : list (gmap string pyval)) :
  collect (l1 ++ l2) records = collect l1 records ≫= collect l2.
Proof.
  revert records. induction l1 as [|v l1 IH]; intros records; [done|].
  rewrite <- app_comm_cons.
  destruct (item_error v) as [e|] eqn:Hv.
  - by rewrite !(collect_step_error v _ _ e).
  - rewrite !collect_step_ok by done. apply IH.
Qed.

(** X6.  The rows already collected are kept as they are and do not change
    what the loop adds: the loop from [records] is the loop from the empty
    list with [records] put in front. *)
Theorem collect_from_records (items : list pyval) (records : list (gmap string pyval)) :
  collect items records = rows ← collect items []; mret (records ++ rows).
Proof.
  assert (∀ front back,
    collect items (front ++ back) = rows ← collect items back; mret (front ++ rows))
    as Hgen.
  { induction items as [|v rest IH]; intros front back; [done|].
    destruct (item_error v) as [e|] eqn:Hv.
    - by rewrite !(collect_step_error v _ _ e).
    - rewrite !collect_step_ok by done. rewrite <- app_assoc. apply IH. }
  specialize (Hgen records []). by rewrite app_nil_r in Hgen.
Qed.

Lemma collect_returns_iff (items : list pyval) (records : list (gmap string pyval)) :
  (∃ rows, collect items records = Return rows) ↔
  Forall (λ v, item_error v = None) items.
Proof.
  split.
  - revert records. induction items as [|v rest IH]; intros records [rows H];
      [constructor|].
    destruct (item_error v) as [e|] eqn:Hv.
    + by rewrite (collect_step_error v _ _ e) in H.
    + rewrite collect_step_ok in H by done. constructor; [done|]. eauto.
  - intros Hall. eexists. by apply collect_no_error.
Qed.

(** X7.  The first item with an error decides the outcome: its exception is
    raised and the rows collected before it are lost. *)
Theorem first_bad_item_raises
    (before after : list pyval) (v : pyval) (e : exn)
    (records : list (gmap string pyval)) :
  Forall (λ v, item_error v = None) before →
  item_error v = Some e →
  collect (before ++ v :: after) records = Raise e.
Proof.
  intros Hbefore Hv. revert records.
  induction Hbefore as [|u before Hu _ IH]; intros records.
  - by apply collect_step_error.
  - rewrite <- app_comm_cons, collect_step_ok by done. apply IH.
Qed.

(** ** More on the flattener *)

(** X8.  The flattener returns a table exactly when the body is an object,
    its [results] (an empty list when the key is missing) can be iterated,
    and no item has an error: every item is an object, or a string or a
    list that does not hold both key names. *)
Theorem flatten_returns_iff (data : pyval) :
  (∃ df, flatten_response data = Return df) ↔
  ∃ d items, data = PDict d ∧ iterate (results_of d) = Return items ∧
             Forall (λ v, item_error v = None) items.
Proof.
  split.
  - intros [df H]. unfold flatten_response in H.
    apply bind_return in H as (results & Hget & H).
    apply bind_return in H as (items & Hiter & H).
    apply bind_return in H as (records & Hloop & _).
    destruct data; try discriminate. injection Hget as <-.
    exists d, items. split; [done|]. split; [done|].
    apply (collect_returns_iff items []). eauto.
  - intros (d & items & -> & Hiter & Hall).
    exists (DataFrame (filter_map_rows items)).
    unfold flatten_response. simpl. fold (results_of d). rewrite Hiter. simpl.
    by rewrite collect_no_error.
Qed.

(** X9.  A body that is not an object raises [AttributeError]; an object
    without [results] gives the empty table; an object whose [results] is
    null raises [TypeError]. *)
Theorem results_missing_or_null :
  (∀ data, is_dict data = false → flatten_response data = Raise AttributeError)
  ∧ (∀ d, d !! "results" = None → flatten_response (PDict d) = Return (DataFrame []))
  ∧ (∀ d, d !! "results" = Some PNone → flatten_response (PDict d) = Raise TypeError).
Proof.
  split; [|split].
  - intros data Hd. by destruct data.
  - intros d Hd. unfold flatten_response. simpl. by rewrite Hd.
  - intros d Hd. unfold flatten_response. simpl. by rewrite Hd.
Qed.

Lemma same_consumed_fields_row v v' :
  same_consumed_fields v v' →
  has_coordinates v = has_coordinates v' ∧ record_row v = record_row v'.
Proof.
  intros (r & r' & -> & -> & H).
  assert (∀ k, k ∈ consumed_fields → r !! k = r' !! k) as Hk by done.
  unfold consumed_fields in Hk.
  pose proof (Hk "scientificName" ltac:(set_solver)) as H1.
  pose proof (Hk "decimalLatitude" ltac:(set_solver)) as H2.
  pose proof (Hk "decimalLongitude" ltac:(set_solver)) as H3.
  pose proof (Hk "country" ltac:(set_solver)) as H4.
  pose proof (Hk "eventDate" ltac:(set_solver)) as H5.
  pose proof (Hk "basisOfRecord" ltac:(set_solver)) as H6.
  simpl. by rewrite H1, H2, H3, H4, H5, H6.
Qed.

(** X10.  The table depends on the six consumed fields only: two bodies
    whose results are lists of objects that agree, item by item, on these
    fields give the same table, whatever else the objects hold. *)
Theorem table_reads_six_fields
    (d d' : gmap string pyval) (results results' : list pyval) :
  results_of d = PList results → results_of d' = PList results' →
  Forall2 same_consumed_fields results results' →
  ∃ df, flatten_response (PDict d) = Return df ∧
        flatten_response (PDict d') = Return df.
Proof.
  intros Hd Hd' Hsame.
  assert (Forall is_dict results ∧ Forall is_dict results' ∧
          filter_map_rows results = filter_map_rows results') as (H1 & H2 & Heq).
  { clear Hd Hd'. induction Hsame as [|v v' l l' Hv _ (IH1 & IH2 & IH)].
    - by repeat split.
    - destruct (same_consumed_fields_row v v' Hv) as [Hc Hr].
      destruct Hv as (r & r' & -> & -> & _).
      split; [by constructor|]. split; [by constructor|].
      rewrite !filter_map_rows_cons, Hc, Hr, IH. done. }
  exists (DataFrame (filter_map_rows results)). split.
  - by apply flatten_total.
  - rewrite Heq. by apply flatten_total.
Qed.

(** ** More on the run of the page *)

Section Page.

Context (float_repr : float → string).
Context (container_repr : pyval → string).
Context {http_response : Type}.
Context (requests_get : string → gmap string pyval → outcome http_response).
Context (response_json : http_response → outcome pyval).

Local Abbreviation request_params := (request_params float_repr container_repr).
Local Abbreviation get_gbif_occurrences :=
  (get_gbif_occurrences float_repr container_repr requests_get response_json).
Local Abbreviation run_query :=
  (run_query float_repr container_repr requests_get response_json).

Lemma get_gbif_occurrences_params_raise species_name limit year_range bbox e :
  request_params species_name limit year_range bbox = Raise e →
  get_gbif_occurrences species_name limit year_range bbox = Raise e.
Proof.
  intros Hp.
  transitivity (request_params species_name limit year_range bbox ≫= λ p,
                response ← requests_get url p;
                data ← response_json response;
                flatten_response data); [reflexivity|].
  by rewrite Hp.
Qed.

(** X11.  A filter with an error makes the function raise that error,
    whatever the HTTP exchange would give: the error of the year range when
    it has one, else the error of the bounding box.  The items read before
    the error are values that Python prints. *)
Theorem bad_filter_raises (species_name limit year_range bbox : pyval) (e : exn) :
  printable_items 2 year_range →
  filter_error 2 year_range = Some e ∨
  (filter_error 2 year_range = None ∧ printable_items 4 bbox ∧
   filter_error 4 bbox = Some e) →
  get_gbif_occurrences species_name limit year_range bbox = Raise e.
Proof.
  intros _ [Hyear|(Hyear & _ & Hbbox)]; apply get_gbif_occurrences_params_raise.
  - by apply request_params_raise_year.
  - by apply request_params_raise_bbox.
Qed.

(** X12.  When the request is answered by an object whose results are a list
    of objects, the page shows the warning if no record has both coordinate
    keys, and otherwise reports the number of records that have both. *)
Theorem page_reports_records
    (species_name limit year_range bbox : pyval) (params : gmap string pyval)
    (response : http_response) (d : gmap string pyval) (results : list pyval) :
  truthy species_name = true →
  request_params species_name limit year_range bbox = Return params →
  requests_get url params = Return response →
  response_json response = Return (PDict d) →
  results_of d = PList results → Forall is_dict results →
  run_query species_name limit year_range bbox =
  Return (match length (filter has_coordinates results) with
          | 0 => Warning no_records_msg
          | S n => Success (S n)
          end).
Proof.
  intros Ht Hp Hget Hjson Hres Hall.
  rewrite run_query_unfold by done.
  rewrite (get_gbif_occurrences_unfold _ _ _ _ _ _ _ _ _ Hp), Hget. simpl.
  rewrite Hjson. simpl.
  rewrite (flatten_total d results) by done. simpl.
  unfold df_empty, df_len, filter_map_rows. simpl.
  destruct (filter has_coordinates results) as [|v kept]; [done|].
  simpl. by rewrite length_fmap.
Qed.

(** X13.  The page never reports zero records: when it reports [n] records
    found, the function returned a table of [n] rows and [n] is positive. *)
Theorem success_is_positive (species_name limit year_range bbox : pyval) (n : nat) :
  run_query species_name limit year_range bbox = Return (Success n) →
  0 < n ∧
  ∃ df, get_gbif_occurrences species_name limit year_range bbox = Return df ∧
        df_len df = n.
Proof.
  destruct (truthy species_name) eqn:Ht.
  - rewrite run_query_unfold by done.
    destruct (get_gbif_occurrences _ _ _ _) as [df|e]; simpl; [|discriminate].
    destruct (df_empty df) eqn:He; [discriminate|].
    intros [= <-]. split; [|by exists df].
    unfold df_empty, df_len in *. destruct (df_records df); [discriminate|].
    simpl. lia.
  - by rewrite run_query_falsy.
Qed.

End Page.

(** ** The name of the downloaded file *)

Lemma replace_spaces_length name :
  String.length (replace_spaces name) = String.length name.
Proof. induction name as [|c rest IH]; simpl; congruence. Qed.

Lemma replace_spaces_get name : ∀ i,
  String.get i (replace_spaces name) =
  (λ c, if Ascii.eqb c " " then "_"%char else c) <$> String.get i name.
Proof.
  induction name as [|c rest IH]; intros i; simpl; [by destruct i|].
  destruct i; [done|]. apply IH.
Qed.

Lemma string_length_app s1 s2 :
  String.length (s1 +:+ s2) = String.length s1 + String.length s2.
Proof. induction s1 as [|c s1 IH]; simpl; [done | by rewrite IH]. Qed.

Lemma string_get_app s1 s2 : ∀ i,
  String.get i (s1 +:+ s2) =
  if decide (i < String.length s1) then String.get i s1
  else String.get (i - String.length s1) s2.
Proof.
  induction s1 as [|c s1 IH]; intros i;
    cbn [String.append String.length].
  - destruct (decide (i < 0)); [lia|]. by rewrite Nat.sub_0_r.
  - change (String c s1 +:+ s2) with (String c (s1 +:+ s2)).
    destruct i as [|i]; cbn [String.get].
    + destruct (decide (0 < S (String.length s1))); [done | lia].
    + rewrite IH.
      destruct (decide (i < String.length s1)),
               (decide (S i < S (String.length s1))); try done; lia.
Qed.

(** X14.  The name of the downloaded file holds no space: it is the species
    name with each space turned into an underscore and every other character
    kept in place, followed by "_occurrences.csv". *)
Theorem csv_file_name_no_space (species_name : string) :
  (∀ i, String.get i (csv_file_name species_name) ≠ Some " "%char)
  ∧ String.length (csv_file_name species_name) = String.length species_name + 16
  ∧ (∀ i c, String.get i species_name = Some c →
       String.get i (csv_file_name species_name) =
       Some (if Ascii.eqb c " " then "_"%char else c))
  ∧ (∀ i, String.get (String.length species_name + i) (csv_file_name species_name) =
          String.get i "_occurrences.csv").
Proof.
  unfold csv_file_name. split; [|split; [|split]].
  - intros i. rewrite string_get_app, replace_spaces_length.
    case_decide.
    + rewrite replace_spaces_get.
      destruct (String.get i species_name) as [c|]; [|done]. simpl.
      destruct (Ascii.eqb_spec c " ") as [->|Hc]; [done|]. by intros [= ->].
    + generalize (i - String.length species_name). intros j.
      do 17 (destruct j as [|j]; [done|]). done.
  - by rewrite string_length_app, replace_spaces_length.
  - intros i c Hc. rewrite string_get_app, replace_spaces_length.
    case_decide as Hi.
    + by rewrite replace_spaces_get, Hc.
    + by rewrite string_get_ge in Hc by lia.
  - intros i. rewrite string_get_app, replace_spaces_length.
    case_decide; [lia|]. f_equal. lia.
Qed.

(** ** The columns of the table *)

Lemma df_columns_rows (rows : list (gmap string pyval)) :
  rows ≠ [] → Forall (λ row, dom row = columns) rows →
  df_columns (DataFrame rows) = columns.
Proof.
  unfold df_columns. simpl. intros Hne Hall.
  induction Hall as [|row rest Hrow Hall IH]; [done|].
  rewrite fmap_cons, union_list_cons, Hrow.
  destruct rest as [|row' rest]; [simpl; set_solver|].
  rewrite IH by done. set_solver.
Qed.

Lemma filter_map_rows_columns items :
  Forall (λ row, dom row = columns) (filter_map_rows items).
Proof.
  pose proof (filter_map_rows_spec items) as H.
  induction H as [|item row kept rows Hrow _ IH]; constructor; [|done].
  by destruct Hrow as (r & lat & lon & _ & _ & _ & _ & _ & _ & _ & _ & _ & Hdom).
Qed.

(** X15.  On every table the flattener returns that is not empty, the
    column reads of the page find their columns; on an empty table the first
    of them raises [KeyError], which is what the test of line 67 keeps the
    page from. *)
Theorem column_reads_need_rows :
  (∀ data df, flatten_response data = Return df → df_empty df = false →
     read_columns df = Return tt)
  ∧ (∀ df, df_empty df = true → read_columns df = Raise KeyError).
Proof.
  split.
  - intros data df (d & items & _ & _ & ->)%flatten_spec Hne.
    assert (df_columns (DataFrame (filter_map_rows items)) = columns) as Hcols.
    { apply df_columns_rows; [|apply filter_map_rows_columns].
      unfold df_empty in Hne. simpl in Hne.
      by destruct (filter_map_rows items). }
    unfold read_columns, df_getitem. rewrite Hcols.
    repeat (case_decide as Hin;
      [simpl | exfalso; apply Hin; unfold columns; repeat constructor; set_solver]).
    done.
  - intros df Hempty. unfold read_columns, df_getitem, df_columns.
    unfold df_empty in Hempty. destruct (df_records df); [|discriminate].
    simpl. case_decide as Hin; [|done].
    apply Forall_cons in Hin as [Hin _]. set_solver.
Qed.

(** ** Instances *)

Lemma year_text_determines_range_witness : 1990%Z = 1990%Z ∧ 2005%Z = 2005%Z.
Proof.
  apply (year_text_determines_range sidebar_float_repr no_container_repr
           (PStr monarch) default_limit PNone 1990 2005 1990 2005
           (<["year" := PStr "1990,2005"]>
              (list_to_map [("scientificName", PStr monarch); ("limit", default_limit);
                            ("hasCoordinate", PStr "true")]))
           (<["year" := PStr "1990,2005"]>
              (list_to_map [("scientificName", PStr monarch); ("limit", default_limit);
                            ("hasCoordinate", PStr "true")]))).
  - reflexivity.
  - reflexivity.
  - reflexivity.
Defined.

(** A null entry after a complete record loses the row of the record. *)
Lemma first_bad_item_raises_witness :
  collect ([PDict complete_record] ++ PNone :: [PDict complete_record]) []
  = Raise TypeError.
Proof.
  apply (first_bad_item_raises [PDict complete_record] [PDict complete_record]
           PNone TypeError []).
  - repeat constructor.
  - reflexivity.
Defined.

(** A record and the same record with the key of its data set. *)
Lemma table_reads_six_fields_witness :
  ∃ df,
    flatten_response (PDict (body_of [PDict complete_record])) = Return df ∧
    flatten_response
      (PDict (body_of [PDict (<["datasetKey" := PStr "50c9509d"]> complete_record)]))
    = Return df.
Proof.
  apply (table_reads_six_fields
           (body_of [PDict complete_record])
           (body_of [PDict (<["datasetKey" := PStr "50c9509d"]> complete_record)])
           [PDict complete_record]
           [PDict (<["datasetKey" := PStr "50c9509d"]> complete_record)]).
  - reflexivity.
  - reflexivity.
  - constructor; [|constructor].
    exists complete_record, (<["datasetKey" := PStr "50c9509d"]> complete_record).
    split; [reflexivity|]. split; [reflexivity|].
    intros k Hk. apply list_elem_of_In in Hk. simpl in Hk.
    destruct Hk as [<-|[<-|[<-|[<-|[<-|[<-|[]]]]]]]; reflexivity.
Defined.

Lemma page_reports_records_witness :
  run_query sidebar_float_repr no_container_repr answer_get
    (json_const (PDict (body_of [PDict complete_record; PDict record_without_longitude])))
    (PStr monarch) default_limit (PTuple [PInt 2000; PInt 2020]) PNone
  = Return (Success 1).
Proof.
  apply (page_reports_records sidebar_float_repr no_container_repr answer_get
           (json_const (PDict (body_of [PDict complete_record;
                                        PDict record_without_longitude])))
           (PStr monarch) default_limit (PTuple [PInt 2000; PInt 2020]) PNone
           (<["year" := PStr "2000,2020"]>
              (list_to_map [("scientificName", PStr monarch); ("limit", default_limit);
                            ("hasCoordinate", PStr "true")]))
           tt
           (body_of [PDict complete_record; PDict record_without_longitude])
           [PDict complete_record; PDict record_without_longitude]).
  - reflexivity.
  - reflexivity.
  - reflexivity.
  - reflexivity.
  - reflexivity.
  - repeat constructor.
Defined.

Lemma success_is_positive_witness :
  0 < 1 ∧
  ∃ df, get_gbif_occurrences sidebar_float_repr no_container_repr answer_get
          (json_const (PDict (body_of [PDict complete_record])))
          (PStr monarch) default_limit (PTuple [PInt 2000; PInt 2020]) PNone
        = Return df ∧ df_len df = 1.
Proof.
  apply (success_is_positive sidebar_float_repr no_container_repr answer_get
           (json_const (PDict (body_of [PDict complete_record])))
           (PStr monarch) default_limit (PTuple [PInt 2000; PInt 2020]) PNone 1).
  reflexivity.
Defined.

(** The years of a pair are sent as their decimal numerals. *)
Lemma params_hold_species_and_year_witness :
  ∃ params,
    request_params sidebar_float_repr no_container_repr
      (PStr monarch) default_limit (PTuple [PInt 1990; PInt 2005])
      (PTuple [PFloat 20; PFloat 50; PFloat (-130); PFloat (-60)]) = Return params ∧
    params !! "scientificName" = Some (PStr monarch) ∧
    params !! "year" = Some (PStr "1990,2005").
Proof.
  destruct (params_hold_species_and_year sidebar_float_repr no_container_repr
              (PStr monarch) default_limit (PTuple [PInt 1990; PInt 2005])
              (PTuple [PFloat 20; PFloat 50; PFloat (-130); PFloat (-60)]))
    as (params & Hp & Hname & Hyear).
  - right. eexists. split; reflexivity.
  - right. eexists. split; reflexivity.
  - simpl. repeat constructor; vm_compute; reflexivity.
  - simpl. repeat constructor.
  - destruct (Hyear (PInt 1990) (PInt 2005) eq_refl)
      as (text_start & text_stop & Hstart & Hstop & Htext).
    apply decimal_numeral_unique in Hstart as ->.
    apply decimal_numeral_unique in Hstop as ->.
    exists params. split; [exact Hp|]. split; [exact Hname | exact Htext].
Defined.

(** An empty tuple and an empty list are supplied, and nothing is sent of
    them. *)
Lemma supplied_falsy_filters_add_nothing :
  ∃ params,
    request_params sidebar_float_repr no_container_repr
      (PStr monarch) default_limit (PTuple []) (PList []) = Return params ∧
    PTuple [] ≠ PNone ∧ PList [] ≠ PNone ∧
    params !! "year" = None ∧
    params !! "decimalLatitude" = None ∧
    params !! "decimalLongitude" = None.
Proof.
  eexists. split; [reflexivity|]. repeat split; discriminate || reflexivity.
Qed.

(** A list of three years passes the test and has the two items read. *)
Lemma params_fixed_and_truthy_filters_witness :
  ∃ params,
    request_params sidebar_float_repr no_container_repr
      (PStr monarch) default_limit (PList [PInt 2000; PInt 2020; PInt 2030])
      (PTuple []) = Return params.
Proof.
  apply (proj2 (params_fixed_and_truthy_filters sidebar_float_repr no_container_repr
                  (PStr monarch) default_limit
                  (PList [PInt 2000; PInt 2020; PInt 2030]) (PTuple []))).
  - reflexivity.
  - reflexivity.
  - simpl. repeat constructor; vm_compute; reflexivity.
  - simpl. constructor.
Defined.

(** A list of years and a box: every key is sent, and the year is made of
    the first two items. *)
Lemma params_keys_exact_witness :
  dom (<["decimalLongitude" := PStr "-130.0,-60.0"]>
         (<["decimalLatitude" := PStr "20.0,50.0"]>
            (<["year" := PStr "2000,2020"]>
               (list_to_map [("scientificName", PStr monarch);
                             ("limit", default_limit);
                             ("hasCoordinate", PStr "true")] : gmap string pyval))))
  = fixed_keys ∪ {["year"]} ∪ {["decimalLatitude"; "decimalLongitude"]}
  ∧ ∃ text0 text1,
      text0 = "2000" ∧ text1 = "2020" ∧
      (<["decimalLongitude" := PStr "-130.0,-60.0"]>
         (<["decimalLatitude" := PStr "20.0,50.0"]>
            (<["year" := PStr "2000,2020"]>
               (list_to_map [("scientificName", PStr monarch);
                             ("limit", default_limit);
                             ("hasCoordinate", PStr "true")] : gmap string pyval))))
        !! "year" = Some (PStr (text0 +:+ "," +:+ text1)).
Proof.
  destruct (params_keys_exact sidebar_float_repr no_container_repr
              (PStr monarch) default_limit
              (PList [PInt 2000; PInt 2020; PInt 2030])
              (PTuple [PFloat 20; PFloat 50; PFloat (-130); PFloat (-60)])
              (<["decimalLongitude" := PStr "-130.0,-60.0"]>
                 (<["decimalLatitude" := PStr "20.0,50.0"]>
                    (<["year" := PStr "2000,2020"]>
                       (list_to_map [("scientificName", PStr monarch);
                                     ("limit", default_limit);
                                     ("hasCoordinate", PStr "true")]))))
              eq_refl) as [Hdom Hyear].
  split; [exact Hdom|].
  destruct (Hyear eq_refl) as (y0 & y1 & text0 & text1 & H0 & H1 & Ht0 & Ht1 & Htext).
  injection H0 as <-. injection H1 as <-.
  exists text0, text1.
  split; [exact (decimal_numeral_unique _ _ Ht0)|].
  split; [exact (decimal_numeral_unique _ _ Ht1) | exact Htext].
Defined.

(** A year range of one character, though of two bytes, has no second
    item. *)
Lemma params_built_iff_witness :
  (∃ params,
     request_params sidebar_float_repr no_container_repr
       (PStr monarch) default_limit (PStr "é") PNone = Return params) ↔
  filter_error 2 (PStr "é") = None ∧ filter_error 4 PNone = None.
Proof.
  apply (params_built_iff sidebar_float_repr no_container_repr
           (PStr monarch) default_limit (PStr "é") PNone).
  - exact I.
  - exact I.
Defined.

(** The same year range raises [IndexError] before the bounding box is
    read and before the network is tried. *)
Lemma bad_filter_raises_witness :
  get_gbif_occurrences sidebar_float_repr no_container_repr offline_get json_of_page
    (PStr monarch) default_limit (PStr "é") (PInt 5)
  = Raise IndexError.
Proof.
  apply (bad_filter_raises sidebar_float_repr no_container_repr offline_get json_of_page
           (PStr monarch) default_limit (PStr "é") (PInt 5) IndexError).
  - exact I.
  - left. reflexivity.
Defined.


